(** * Truck route planner (src/src/App.tsx)

    Shallow embedding of the travel-time estimator [calculateTruckDuration]
    with the constant tables it reads, of the formatter [formatDuration], and
    of the search ([searchLocation], [getRoute], [handleSearch]) with what the
    page draws from its state.

    The estimator is given in two arithmetics.  In the first a JavaScript
    [number] is an exact rational [Q]: the operations ([/], [*], [+]) are
    those of the field, comparisons are the order of [Q], [Math.floor] is
    [Qfloor] and [Math.round] rounds halves upwards; thresholds, bounds,
    signs and monotonicity are proved there.  In the second, [Double], every
    operation rounds its result to the nearest binary64 number as the program
    does; the value that is rounded to the returned minutes, and what each
    step adds to it, are stated there.  The comparisons, the speeds and the
    delays are common to both.  [estimate_piecewise_linear] bounds the
    distance between the two, and [half_minute_cases] shows distances on which
    they return different minutes.

    Equality of intermediate quantities is [Qeq] ([==]) or Leibniz equality
    of the computed numbers; the two fields of the result are integers.

    The two services are inputs: a [World] holds their answers, and an
    asynchronous function is the function from those answers to its result.
    [handleSearch] is the state of the component once one run of the handler
    has finished, no other handler running meanwhile. *)

From Stdlib Require Import ZArith QArith Qround Lia Lqa String Bool.
From Stdlib Require Import List DecimalString Qabs Qpower.
Import ListNotations.

Local Open Scope Q_scope.

(** ** JavaScript number primitives *)

Module JS.

(** [x <= y], [x < y] and [x > y] on numbers, as booleans. *)
Definition leb (x y : Q) : bool := Qle_bool x y.
Definition ltb (x y : Q) : bool := negb (Qle_bool y x).
Definition gtb (x y : Q) : bool := negb (Qle_bool x y).

(** [Math.floor]. *)
Definition Math_floor (x : Q) : Z := Qfloor x.

(** [Math.round]: the nearest integer, a half going up. *)
Definition Math_round (x : Q) : Z := Qfloor (x + (1 # 2)).

End JS.

(** ** The estimator *)

(** The object returned by [calculateTruckDuration]. *)
Record DurationEstimate : Set := mkEstimate {
  duration : Z;
  restStops : Z
}.

(** [truckSpeeds] (lines 107-113). *)
Module truckSpeeds.
Definition motorway : Q := 80.
Definition trunk : Q := 60.
Definition primary : Q := 50.
Definition secondary : Q := 40.
Definition residential : Q := 30.
End truckSpeeds.

(** [timeFactors] (lines 116-120). *)
Module timeFactors.
Definition peakHours : Q := 1.4.
Definition normal : Q := 1.2.
Definition nighttime : Q := 1.1.
End timeFactors.

(** [truckFactors] (lines 123-127); two of its fields depend on the
    distance. *)
Module truckFactors.
Definition loadingUnloading (distance : Q) : Q :=
  if JS.gtb distance 50 then 30 else 20.
Definition cityAccess (distance : Q) : Q :=
  if JS.gtb distance 30 then 20 else 10.
Definition weightStations : Q := 15.
End truckFactors.

(** The short-distance branch (lines 96-98). *)
Definition baseMinutes (distance : Q) : Q := (distance / 25) * 60.
Definition loadUnloadTime : Q := 15.
Definition trafficBuffer (distance : Q) : Q := baseMinutes distance * 0.2.

(** [baseSpeed] (lines 130-135). *)
Definition baseSpeed (distance : Q) : Q :=
  if JS.gtb distance 100 then truckSpeeds.motorway
  else if JS.gtb distance 50 then truckSpeeds.trunk
  else truckSpeeds.primary.

(** Rest stops of the long-distance branch (lines 138-140). *)
Definition drivingHours (distance : Q) : Q := distance / baseSpeed distance.
Definition longRestStops (distance : Q) : Z :=
  JS.Math_floor (drivingHours distance / 4.5).
Definition restTime (distance : Q) : Q := inject_Z (longRestStops distance * 45).

(** The successive values of the local variable [duration]
    (lines 143-154), one definition per assignment. *)
Definition duration_drive (distance : Q) : Q :=
  (distance / baseSpeed distance) * 60.
Definition duration_factor (distance : Q) : Q :=
  duration_drive distance * timeFactors.normal.
Definition duration_rest (distance : Q) : Q :=
  duration_factor distance + restTime distance.
Definition duration_loading (distance : Q) : Q :=
  duration_rest distance + truckFactors.loadingUnloading distance.
Definition duration_city (distance : Q) : Q :=
  if JS.ltb distance 50
  then duration_loading distance + truckFactors.cityAccess distance
  else duration_loading distance.
Definition duration_weight (distance : Q) : Q :=
  if JS.gtb distance 100
  then duration_city distance + truckFactors.weightStations
  else duration_city distance.

(** [calculateTruckDuration] (lines 91-160). *)
Definition calculateTruckDuration (distance : Q) (routeType : string)
  : DurationEstimate :=
  if JS.leb distance 15 then
    {| duration :=
         JS.Math_round
           (baseMinutes distance + loadUnloadTime + trafficBuffer distance);
       restStops := 0 |}
  else
    {| duration := JS.Math_round (duration_weight distance);
       restStops := longRestStops distance |}.

(** ** Binary64 arithmetic

    The numbers of the program are IEEE 754 doubles, and each of its
    arithmetic operations rounds the exact result to the nearest double, a tie
    going to the even significand.  A finite double is the rational it
    denotes.  Overflow to an infinity (magnitudes from 2^1024 on), NaN and the
    sign of zero are not represented. *)
Module F64.

(** The integer [e] with [2^e <= |x| < 2^(e+1)], for [x] other than zero. *)
Definition ilog2 (x : Q) : Z :=
  let e := (Z.log2 (Z.abs (Qnum x)) - Z.log2 (Zpos (Qden x)))%Z in
  if Qle_bool (2 ^ e) (Qabs x) then e else (e - 1)%Z.

(** Rounding to the nearest integer, a half going to the even one. *)
Definition rne (y : Q) : Z :=
  let f := Qfloor y in
  match Qcompare (y - inject_Z f) (1 # 2) with
  | Lt => f
  | Gt => (f + 1)%Z
  | Eq => if Z.even f then f else (f + 1)%Z
  end.

(** The exponent of the last place of a double near [x]: 53 significant
    bits, and the subnormal spacing 2^-1074 below 2^-1022. *)
Definition exponent (x : Q) : Z := (Z.max (ilog2 x) (-1022) - 52)%Z.

(** The double nearest to [x]. *)
Definition round (x : Q) : Q :=
  let x := Qred x in
  if Qeq_bool x 0 then 0
  else Qred (inject_Z (rne (x / 2 ^ exponent x)) * 2 ^ exponent x).

(** [x + y], [x * y] and [x / y] on doubles. *)
Definition add (x y : Q) : Q := round (x + y).
Definition mul (x y : Q) : Q := round (x * y).
Definition div (x y : Q) : Q := round (x / y).

End F64.

(** ** The estimator in binary64

    [calculateTruckDuration] (lines 91-160) once more, each operation rounded
    as the program rounds it.  The comparisons, the selected speed and the
    delays are those of the definitions above, which involve no arithmetic;
    the literals [0.2] and [1.2] are the doubles nearest to them, the other
    literals are doubles already.  The argument is a double. *)
Module Double.

(** The short-distance branch (lines 96-98). *)
Definition baseMinutes (distance : Q) : Q :=
  F64.mul (F64.div distance 25) 60.
Definition trafficBuffer (distance : Q) : Q :=
  F64.mul (baseMinutes distance) (F64.round 0.2).

(** Rest stops of the long-distance branch (lines 138-140). *)
Definition drivingHours (distance : Q) : Q :=
  F64.div distance (baseSpeed distance).
Definition longRestStops (distance : Q) : Z :=
  JS.Math_floor (F64.div (drivingHours distance) 4.5).
Definition restTime (distance : Q) : Q :=
  F64.mul (inject_Z (longRestStops distance)) 45.

(** The successive values of the local variable [duration]
    (lines 143-154). *)
Definition duration_drive (distance : Q) : Q :=
  F64.mul (F64.div distance (baseSpeed distance)) 60.
Definition duration_factor (distance : Q) : Q :=
  F64.mul (duration_drive distance) (F64.round timeFactors.normal).
Definition duration_rest (distance : Q) : Q :=
  F64.add (duration_factor distance) (restTime distance).
Definition duration_loading (distance : Q) : Q :=
  F64.add (duration_rest distance) (truckFactors.loadingUnloading distance).
Definition duration_city (distance : Q) : Q :=
  if JS.ltb distance 50
  then F64.add (duration_loading distance) (truckFactors.cityAccess distance)
  else duration_loading distance.
Definition duration_weight (distance : Q) : Q :=
  if JS.gtb distance 100
  then F64.add (duration_city distance) truckFactors.weightStations
  else duration_city distance.

(** [calculateTruckDuration] (lines 91-160). *)
Definition calculateTruckDuration (distance : Q) (routeType : string)
  : DurationEstimate :=
  if JS.leb distance 15 then
    {| duration :=
         JS.Math_round
           (F64.add (F64.add (baseMinutes distance) loadUnloadTime)
                    (trafficBuffer distance));
       restStops := 0 |}
  else
    {| duration := JS.Math_round (duration_weight distance);
       restStops := longRestStops distance |}.

End Double.

(** ** The duration formatter *)

(** Truncation towards zero, and [x % y] for a nonzero divisor [y]: the
    dividend minus the divisor times the truncated quotient, so that the
    remainder takes the sign of the dividend. *)
Definition Math_trunc (x : Q) : Z :=
  if Qle_bool 0 x then Qfloor x else Qceiling x.
Definition Number_remainder (x y : Q) : Q :=
  x - y * inject_Z (Math_trunc (x / y)).

(** The decimal digits of an integer, with a minus sign when negative. *)
Definition decimal (n : Z) : string := NilZero.string_of_int (Z.to_int n).

Section FormatDuration.

(** The conversion of an integral number to text that a template literal
    performs; [decimal] for the magnitudes a duration takes. *)
Variable toString : Z -> string.

(** [hours] and [remainingMinutes] (lines 42-43). *)
Definition formatDuration_hours (minutes : Q) : Z :=
  JS.Math_floor (minutes / 60).
Definition formatDuration_remainingMinutes (minutes : Q) : Z :=
  JS.Math_round (Number_remainder minutes 60).

(** [hours === 1 ? 'hour' : 'hours']. *)
Definition hourWord (hours : Z) : string :=
  if (hours =? 1)%Z then "hour" else "hours".

(** [formatDuration] (lines 41-52). *)
Definition formatDuration (minutes : Q) : string :=
  let hours := formatDuration_hours minutes in
  let remainingMinutes := formatDuration_remainingMinutes minutes in
  if (hours =? 0)%Z then
    (toString remainingMinutes ++ " mins")%string
  else if (remainingMinutes =? 0)%Z then
    (toString hours ++ " " ++ hourWord hours)%string
  else
    (toString hours ++ " " ++ hourWord hours ++ " " ++
     toString remainingMinutes ++ " mins")%string.

End FormatDuration.

(** ** The route planner *)

(** [LatLngTuple]: a latitude and a longitude. *)
Definition LatLngTuple : Type := (Q * Q)%type.

(** A value raised by [throw] or by the engine: an instance of [Error] with
    its message, or anything else. *)
Inductive Thrown : Type :=
| ErrorInstance (message : string)
| NonError.

(** Outcome of [await fetch(...)] followed by [await response.json()]: the
    parsed body, or the value raised before it was available. *)
Inductive Fetched (A : Type) : Type :=
| Threw (e : Thrown)
| Body (data : A).
Arguments Threw {A} e.
Arguments Body {A} data.

(** The rows of a geocoding reply; the planner reads these three fields. *)
Module Nominatim.
Record Place : Type := {
  lat : string;
  lon : string;
  display_name : string
}.
End Nominatim.

(** A routing reply; the planner reads [code], and of each route
    [geometry.coordinates], [distance] (metres) and [legs[0].summary]. *)
Module Osrm.
Record Leg : Type := { summary : string }.
Record Geometry : Type := { coordinates : list (Q * Q) }.
Record Route : Type := {
  geometry : Geometry;
  distance : Q;
  legs : list Leg
}.
Record Response : Type := {
  code : string;
  routes : list Route
}.
End Osrm.

(** [interface Location] (lines 21-25), over the type of the numbers that
    [parseFloat] returns. *)
Record Location (number : Type) : Type := {
  lat : number;
  lon : number;
  display_name : string
}.
Arguments lat {number} _.
Arguments lon {number} _.
Arguments display_name {number} _.

(** What the planner does not compute itself: [parseFloat], the [TypeError]
    raised by reading a property of [undefined], the answers of the
    geocoding service to the first and to the second request of a search, and
    the answer of the routing service. *)
Record World : Type := {
  number : Type;
  parseFloat : string -> number;
  typeError : Thrown;
  nominatimFrom : string -> Fetched (list Nominatim.Place);
  nominatimTo : string -> Fetched (list Nominatim.Place);
  osrm : Location number -> Location number -> Fetched Osrm.Response
}.

(** The object built from [data[0]] on lines 80-84. *)
Definition locationOf (w : World) (place : Nominatim.Place)
  : Location (number w) :=
  {| lat := parseFloat w (Nominatim.lat place);
     lon := parseFloat w (Nominatim.lon place);
     display_name := Nominatim.display_name place |}.

(** [searchLocation] (lines 69-89), on the answer of the service to its
    request. *)
Definition searchLocation (w : World)
    (nominatim : string -> Fetched (list Nominatim.Place)) (query : string)
  : option (Location (number w)) :=
  match nominatim query with
  | Threw _ => None
  | Body data =>
      match nth_error data 0 with
      | Some place => Some (locationOf w place)
      | None => None
      end
  end.

(** The object returned by [getRoute] (lines 187-193). *)
Module RouteData.
Record t : Type := {
  coordinates : list LatLngTuple;
  distance : Q;
  duration : Z;
  restStops : Z;
  alternatives : list (list LatLngTuple)
}.
End RouteData.

(** [(coord) => [coord[1], coord[0]]] (lines 175 and 180). *)
Definition swapCoord (coord : Q * Q) : LatLngTuple := (snd coord, fst coord).

(** The [try] block of [getRoute] (lines 164-193). *)
Definition getRoute_try (w : World) (from to : Location (number w))
  : RouteData.t + Thrown :=
  match osrm w from to with
  | Threw e => inr e
  | Body data =>
      if negb (String.eqb (Osrm.code data) "Ok") then
        inr (ErrorInstance "Unable to find route between these locations")
      else
        match nth_error (Osrm.routes data) 0 with
        | None => inr (typeError w)
        | Some primaryRoute =>
            let coordinates :=
              map swapCoord (Osrm.coordinates (Osrm.geometry primaryRoute)) in
            let alternatives :=
              map (fun route =>
                     map swapCoord (Osrm.coordinates (Osrm.geometry route)))
                  (skipn 1 (Osrm.routes data)) in
            let distance := Osrm.distance primaryRoute / 1000 in
            match nth_error (Osrm.legs primaryRoute) 0 with
            | None => inr (typeError w)
            | Some leg =>
                let estimate :=
                  calculateTruckDuration distance (Osrm.summary leg) in
                inl {| RouteData.coordinates := coordinates;
                       RouteData.distance := distance;
                       RouteData.duration := duration estimate;
                       RouteData.restStops := restStops estimate;
                       RouteData.alternatives := alternatives |}
            end
        end
  end.

(** [getRoute] (lines 162-198): whatever the [try] block raises is replaced
    by one error. *)
Definition getRoute (w : World) (from to : Location (number w))
  : RouteData.t + Thrown :=
  match getRoute_try w from to with
  | inl routeData => inl routeData
  | inr _ => inr (ErrorInstance "Failed to calculate route")
  end.

(** The state of [routeInfo] (lines 60-66). *)
Module RouteInfo.
Inductive TrafficLevel : Set := low | medium | high.
Record t : Type := {
  distance : Q;
  duration : Z;
  restStops : Z;
  alternatives : option (list (list LatLngTuple));
  trafficLevel : option TrafficLevel
}.
End RouteInfo.

(** The state variables of [App] (lines 55-66). *)
Record State : Type := {
  fromLocation : string;
  toLocation : string;
  route : list LatLngTuple;
  loading : bool;
  error : option string;
  routeInfo : option RouteInfo.t
}.

Definition setRoute (v : list LatLngTuple) (s : State) : State :=
  {| fromLocation := fromLocation s; toLocation := toLocation s;
     route := v; loading := loading s; error := error s;
     routeInfo := routeInfo s |}.
Definition setLoading (v : bool) (s : State) : State :=
  {| fromLocation := fromLocation s; toLocation := toLocation s;
     route := route s; loading := v; error := error s;
     routeInfo := routeInfo s |}.
Definition setError (v : option string) (s : State) : State :=
  {| fromLocation := fromLocation s; toLocation := toLocation s;
     route := route s; loading := loading s; error := v;
     routeInfo := routeInfo s |}.
Definition setRouteInfo (v : option RouteInfo.t) (s : State) : State :=
  {| fromLocation := fromLocation s; toLocation := toLocation s;
     route := route s; loading := loading s; error := error s;
     routeInfo := v |}.

Definition notFoundMessage : string :=
  "Could not find one or both locations. Please check the spelling and try again.".

(** The [try] block of [handleSearch] (lines 207-223): the state after its
    setters, or the value it raised. *)
Definition handleSearch_try (w : World) (s : State) : State + Thrown :=
  let fromLoc := searchLocation w (nominatimFrom w) (fromLocation s) in
  let toLoc := searchLocation w (nominatimTo w) (toLocation s) in
  match fromLoc, toLoc with
  | Some fromLoc, Some toLoc =>
      match getRoute w fromLoc toLoc with
      | inr e => inr e
      | inl routeData =>
          let s := setRoute (RouteData.coordinates routeData) s in
          inl (setRouteInfo
                 (Some {| RouteInfo.distance := RouteData.distance routeData;
                          RouteInfo.duration := RouteData.duration routeData;
                          RouteInfo.restStops := RouteData.restStops routeData;
                          RouteInfo.alternatives :=
                            Some (RouteData.alternatives routeData);
                          RouteInfo.trafficLevel := None |}) s)
      end
  | _, _ => inr (ErrorInstance notFoundMessage)
  end.

(** [handleSearch] (lines 200-229): the state once the handler has
    finished. *)
Definition handleSearch (w : World) (s : State) : State :=
  let s := setLoading true s in
  let s := setError None s in
  let s := setRoute [] s in
  let s := setRouteInfo None s in
  let s :=
    match handleSearch_try w s with
    | inl s' => s'
    | inr (ErrorInstance message) => setError (Some message) s
    | inr NonError => setError (Some "An unexpected error occurred"%string) s
    end in
  setLoading false s.

(** What the page draws from the state (lines 276-341): the error box, the
    rest-stop note, the count of alternatives, and the two markers. *)
Definition errorShown (s : State) : option string :=
  match error s with
  | Some message => if String.eqb message "" then None else Some message
  | None => None
  end.
Definition restStopsShown (s : State) : option Z :=
  match routeInfo s with
  | Some info =>
      if (0 <? RouteInfo.restStops info)%Z
      then Some (RouteInfo.restStops info) else None
  | None => None
  end.
Definition alternativesShown (s : State) : option nat :=
  match routeInfo s with
  | Some info =>
      match RouteInfo.alternatives info with
      | Some alts => if (0 <? length alts)%nat then Some (length alts) else None
      | None => None
      end
  | None => None
  end.
Definition startMarker (s : State) : option LatLngTuple :=
  if (0 <? length (route s))%nat then nth_error (route s) 0 else None.
Definition endMarker (s : State) : option LatLngTuple :=
  if (0 <? length (route s))%nat
  then nth_error (route s) (length (route s) - 1) else None.

(** ** A sample world

    A geocoder that knows two towns and a router that answers with one
    primary route of 570 km and one alternative; used to run the planner. *)
Module Sample.

Definition bengaluru : Nominatim.Place :=
  {| Nominatim.lat := "12.9716"; Nominatim.lon := "77.5946";
     Nominatim.display_name := "Bengaluru, Karnataka, India" |}.
Definition hyderabad : Nominatim.Place :=
  {| Nominatim.lat := "17.3850"; Nominatim.lon := "78.4867";
     Nominatim.display_name := "Hyderabad, Telangana, India" |}.

Definition geocoder (query : string) : Fetched (list Nominatim.Place) :=
  if String.eqb query "Bengaluru" then Body [bengaluru]
  else if String.eqb query "Hyderabad" then Body [hyderabad; bengaluru]
  else if String.eqb query "offline" then Threw NonError
  else Body [].

Definition primaryRoute : Osrm.Route :=
  {| Osrm.geometry :=
       {| Osrm.coordinates :=
            [(77.5946, 12.9716); (78.0, 15.0); (78.4867, 17.3850)] |};
     Osrm.distance := 570000;
     Osrm.legs := [{| Osrm.summary := "NH 44" |}] |}.
Definition otherRoute : Osrm.Route :=
  {| Osrm.geometry :=
       {| Osrm.coordinates := [(77.5946, 12.9716); (78.4867, 17.3850)] |};
     Osrm.distance := 610000;
     Osrm.legs := [{| Osrm.summary := "NH 7" |}] |}.
Definition reply : Osrm.Response :=
  {| Osrm.code := "Ok"; Osrm.routes := [primaryRoute; otherRoute] |}.

Definition world : World :=
  {| number := string;
     parseFloat := fun text => text;
     typeError := ErrorInstance "Cannot read properties of undefined";
     nominatimFrom := geocoder;
     nominatimTo := geocoder;
     osrm := fun _ _ => Body reply |}.

(** The same geocoder with a router that finds no route. *)
Definition noRouteWorld : World :=
  {| number := string;
     parseFloat := fun text => text;
     typeError := ErrorInstance "Cannot read properties of undefined";
     nominatimFrom := geocoder;
     nominatimTo := geocoder;
     osrm := fun _ _ => Body {| Osrm.code := "NoRoute"; Osrm.routes := [] |} |}.

Definition initial (from to : string) : State :=
  {| fromLocation := from; toLocation := to; route := [];
     loading := false; error := None; routeInfo := None |}.

End Sample.

(** ** Comparisons and rounding *)

Section Primitives.

Lemma lebP (x y : Q) : reflect (x <= y) (JS.leb x y).
Proof. apply iff_reflect; symmetry; apply Qle_bool_iff. Qed.

Lemma gtbP (x y : Q) : reflect (y < x) (JS.gtb x y).
Proof.
  unfold JS.gtb; change (Qle_bool x y) with (JS.leb x y).
  destruct (lebP x y) as [H | H]; simpl; constructor.
  - now apply Qle_not_lt.
  - now apply Qnot_le_lt.
Qed.

Lemma ltbP (x y : Q) : reflect (x < y) (JS.ltb x y).
Proof. exact (gtbP y x). Qed.

(** An integer [n] with [n <= x < n + 1] is the floor of [x]. *)
Lemma Qfloor_unique (x : Q) (n : Z) :
  inject_Z n <= x -> x < inject_Z n + 1 -> Qfloor x = n.
Proof.
  intros Hlo Hhi.
  pose proof (Qfloor_le x) as Hfl.
  pose proof (Qlt_floor x) as Hfu.
  rewrite inject_Z_plus in Hfu; change (inject_Z 1) with 1 in Hfu.
  assert (inject_Z (Qfloor x) < inject_Z (n + 1)) as H1
    by (rewrite inject_Z_plus; change (inject_Z 1) with 1; lra).
  assert (inject_Z n < inject_Z (Qfloor x + 1)) as H2
    by (rewrite inject_Z_plus; change (inject_Z 1) with 1; lra).
  rewrite <- Zlt_Qlt in H1, H2; lia.
Qed.

Lemma Qfloor_bounds (x : Q) :
  inject_Z (Qfloor x) <= x /\ x < inject_Z (Qfloor x) + 1.
Proof.
  split; [apply Qfloor_le |].
  pose proof (Qlt_floor x) as H.
  now rewrite inject_Z_plus in H.
Qed.



Lemma Math_round_comp (x y : Q) :
  x == y -> JS.Math_round x = JS.Math_round y.
Proof. intros H; unfold JS.Math_round; now rewrite H. Qed.



End Primitives.

(** ** Binary64 rounding *)

Section Rounding.

Lemma pow2_pos (k : Z) : 0 < 2 ^ k.
Proof. now apply Qpower_0_lt. Qed.



(** Rounding to an integer moves a number by at most one half. *)
Lemma rne_error (y : Q) : Qabs (inject_Z (F64.rne y) - y) <= 1 # 2.
Proof.
  unfold F64.rne.
  destruct (Qfloor_bounds y) as [Hlo Hhi].
  apply Qabs_Qle_condition.
  destruct (Qcompare_spec (y - inject_Z (Qfloor y)) (1 # 2)) as [H | H | H].
  - destruct (Z.even (Qfloor y));
      [| rewrite inject_Z_plus; change (inject_Z 1) with 1]; lra.
  - lra.
  - rewrite inject_Z_plus; change (inject_Z 1) with 1; lra.
Qed.

(** Rounding depends on the number, not on the fraction that writes it. *)
Lemma round_comp (x y : Q) : x == y -> F64.round x = F64.round y.
Proof. intros H; unfold F64.round; now rewrite (Qred_complete x y H). Qed.

Lemma Z_log2_bounds (n : Z) :
  (0 < n)%Z ->
  2 ^ Z.log2 n <= inject_Z n /\ inject_Z n < 2 ^ (Z.log2 n + 1).
Proof.
  intros H; destruct (Z.log2_spec n H) as [H1 H2].
  pose proof (Z.log2_nonneg n) as Hnn.
  change 2 with (inject_Z 2).
  rewrite <- !Zpower_Qpower by lia.
  rewrite <- Zle_Qle, <- Zlt_Qlt.
  replace (Z.log2 n + 1)%Z with (Z.succ (Z.log2 n)) by lia.
  now split.
Qed.

Lemma Qabs_num_den (x : Q) :
  Qabs x == inject_Z (Z.abs (Qnum x)) / inject_Z (Zpos (Qden x)).
Proof.
  destruct x as [a b]; cbn [Qnum Qden]; unfold Qabs.
  now rewrite (Qmake_Qdiv (Z.abs a) b).
Qed.

(** [ilog2] does not overshoot. *)
Lemma ilog2_lower (x : Q) : ~ x == 0 -> 2 ^ F64.ilog2 x <= Qabs x.
Proof.
  intros Hx; unfold F64.ilog2.
  set (n := Z.abs (Qnum x)); set (d := Zpos (Qden x)).
  set (e := (Z.log2 n - Z.log2 d)%Z).
  destruct (Qle_bool (2 ^ e) (Qabs x)) eqn:Hb; [now apply Qle_bool_iff |].
  assert (0 < n)%Z as Hn.
  { unfold n; destruct x as [a b]; unfold Qeq in Hx; cbn in *; lia. }
  assert (0 < d)%Z as Hd by (unfold d; lia).
  destruct (Z_log2_bounds n Hn) as [Hn1 _].
  destruct (Z_log2_bounds d Hd) as [_ Hd2].
  rewrite (Qabs_num_den x); fold n; fold d.
  assert (0 < inject_Z d) as Hd0
    by (change 0 with (inject_Z 0); now rewrite <- Zlt_Qlt).
  apply Qle_shift_div_l; [exact Hd0 |].
  apply Qle_trans with (2 ^ (e - 1) * 2 ^ (Z.log2 d + 1)).
  - apply Qmult_le_l; [apply pow2_pos | now apply Qlt_le_weak].
  - rewrite <- Qpower_plus by discriminate.
    replace (e - 1 + (Z.log2 d + 1))%Z with (Z.log2 n) by (unfold e; lia).
    exact Hn1.
Qed.

(** The rounding error: half a unit in the last place, that is at most
    [2^(k-53)] on the numbers up to [2^k] in magnitude. *)
Lemma round_error (x : Q) (k : Z) :
  (-1022 <= k)%Z -> Qabs x <= 2 ^ k ->
  Qabs (F64.round x - x) <= 2 ^ (k - 53).
Proof.
  intros Hk Hx; unfold F64.round.
  pose proof (Qred_correct x) as Hred.
  set (x' := Qred x) in *.
  destruct (Qeq_bool x' 0) eqn:H0.
  - apply Qeq_bool_iff in H0; rewrite <- Hred, H0.
    change (0 - 0) with 0; apply Qlt_le_weak, pow2_pos.
  - assert (~ x' == 0) as Hnz
      by (intros E; apply Qeq_bool_iff in E; congruence).
    rewrite Qred_correct.
    set (q := F64.exponent x').
    pose proof (ilog2_lower x' Hnz) as Hlow.
    assert (F64.ilog2 x' <= k)%Z as He.
    { apply Qpower_le_compat_l_inv with (q := 2); [| reflexivity].
      assert (Qabs x' == Qabs x) as Ha by (apply Qabs_wd; exact Hred).
      lra. }
    assert (q <= k - 52)%Z as Hq by (unfold q, F64.exponent; lia).
    pose proof (rne_error (x' / 2 ^ q)) as Hr.
    pose proof (pow2_pos q) as Hp.
    assert (Qabs (inject_Z (F64.rne (x' / 2 ^ q)) * 2 ^ q - x)
            <= (1 # 2) * 2 ^ q) as Hm.
    { assert (inject_Z (F64.rne (x' / 2 ^ q)) * 2 ^ q - x ==
              (inject_Z (F64.rne (x' / 2 ^ q)) - x' / 2 ^ q) * 2 ^ q) as ->
        by (rewrite <- Hred; field; lra).
      rewrite Qabs_Qmult, (Qabs_pos (2 ^ q)) by lra.
      apply Qmult_le_compat_r; [exact Hr | lra]. }
    eapply Qle_trans; [exact Hm |].
    replace (k - 53)%Z with (-1 + (k - 52))%Z by lia.
    rewrite Qpower_plus by discriminate.
    change (2 ^ (-1)) with (1 # 2).
    apply Qmult_le_l; [reflexivity |].
    apply Qpower_le_compat_l; [exact Hq | discriminate].
Qed.

Lemma round_between (x : Q) (k : Z) :
  (-1022 <= k)%Z -> - 2 ^ k <= x -> x <= 2 ^ k ->
  x - 2 ^ (k - 53) <= F64.round x /\ F64.round x <= x + 2 ^ (k - 53).
Proof.
  intros Hk Hlo Hhi.
  assert (Qabs x <= 2 ^ k) as Ha by (apply Qabs_Qle_condition; now split).
  pose proof (round_error x k Hk Ha) as He.
  apply Qabs_Qle_condition in He; lra.
Qed.


End Rounding.

(** [round_bound x k]: the enclosure of [F64.round x] for [|x| <= 2^k], with
    the powers of two written as numerals. *)
Ltac round_bound x k :=
  let H := fresh "Hround" in
  let lo := eval vm_compute in (- 2 ^ k) in
  let hi := eval vm_compute in (2 ^ k) in
  let err := eval vm_compute in (2 ^ (k - 53)) in
  assert (x - err <= F64.round x /\ F64.round x <= x + err) as H
    by (apply (round_between x k);
        [lia | change (- 2 ^ k) with lo | change (2 ^ k) with hi]; lra).

(** ** Facts about the tiers *)

Ltac js_cases :=
  repeat match goal with
    | |- context [JS.gtb ?x ?y] => destruct (gtbP x y)
    | |- context [JS.ltb ?x ?y] => destruct (ltbP x y)
    | |- context [JS.leb ?x ?y] => destruct (lebP x y)
    end.

(** [lra] after division by a numeral has been turned into a product. *)
Ltac qlra := unfold Qdiv in *; cbn [Qinv Qnum Qden] in *; lra.

Ltac unfold_estimator :=
  unfold calculateTruckDuration, duration_weight, duration_city,
    duration_loading, duration_rest, duration_factor, duration_drive,
    restTime, trafficBuffer, baseMinutes, loadUnloadTime,
    truckFactors.loadingUnloading, truckFactors.cityAccess,
    truckFactors.weightStations, timeFactors.normal.

Section Tiers.

Variable distance : Q.

(** The long-distance branch returns the rounded last value of
    [duration] and the floor computed on line 139. *)
Lemma long_haul (routeType : string) :
  15 < distance ->
  calculateTruckDuration distance routeType =
    {| duration := JS.Math_round (duration_weight distance);
       restStops := longRestStops distance |}.
Proof.
  intros H; unfold calculateTruckDuration.
  destruct (lebP distance 15); [lra | reflexivity].
Qed.

Lemma short_haul (routeType : string) :
  distance <= 15 ->
  calculateTruckDuration distance routeType =
    {| duration :=
         JS.Math_round
           (baseMinutes distance + loadUnloadTime + trafficBuffer distance);
       restStops := 0 |}.
Proof.
  intros H; unfold calculateTruckDuration.
  destruct (lebP distance 15); [reflexivity | lra].
Qed.

(** The three speeds that line 130-135 can select, with the distances
    that select them. *)
Lemma baseSpeed_tier :
  (100 < distance /\ baseSpeed distance = truckSpeeds.motorway) \/
  (50 < distance <= 100 /\ baseSpeed distance = truckSpeeds.trunk) \/
  (distance <= 50 /\ baseSpeed distance = truckSpeeds.primary).
Proof.
  unfold baseSpeed.
  destruct (gtbP distance 100); [left; split; [assumption | reflexivity] |].
  destruct (gtbP distance 50); right; [left | right];
    (split; [lra | reflexivity]).
Qed.


End Tiers.

(** ** The binary64 estimator, tier by tier *)

Lemma round_0_2 : F64.round 0.2 = 3602879701896397 # 18014398509481984.
Proof. vm_compute; reflexivity. Qed.

Lemma round_1_2 :
  F64.round timeFactors.normal = 5404319552844595 # 4503599627370496.
Proof. vm_compute; reflexivity. Qed.

Lemma no_rest_time : F64.mul (inject_Z 0) 45 = 0.
Proof. vm_compute; reflexivity. Qed.

(** [enclose k]: encloses the innermost rounded term of the goal, of
    magnitude at most [2^k], and names it. *)
Ltac enclose k :=
  match goal with
  | |- context [F64.round ?x] =>
      lazymatch x with
      | context [F64.round _] => fail
      | _ => round_bound x k;
             let y := fresh "y" in set (y := F64.round x) in *; clearbody y
      end
  end.

Ltac unfold_double :=
  unfold Double.duration_weight, Double.duration_city,
    Double.duration_loading, Double.duration_rest, Double.duration_factor,
    Double.duration_drive, Double.restTime, Double.longRestStops,
    Double.drivingHours, Double.trafficBuffer, Double.baseMinutes,
    F64.add, F64.mul, F64.div, JS.Math_floor, loadUnloadTime.

Section DoubleTiers.

Variable distance : Q.

Lemma double_long_haul (routeType : string) :
  15 < distance ->
  Double.calculateTruckDuration distance routeType =
    {| duration := JS.Math_round (Double.duration_weight distance);
       restStops := Double.longRestStops distance |}.
Proof.
  intros H; unfold Double.calculateTruckDuration.
  destruct (lebP distance 15); [lra | reflexivity].
Qed.

Lemma double_short_haul (routeType : string) :
  distance <= 15 ->
  Double.calculateTruckDuration distance routeType =
    {| duration :=
         JS.Math_round
           (F64.add (F64.add (Double.baseMinutes distance) loadUnloadTime)
                    (Double.trafficBuffer distance));
       restStops := 0 |}.
Proof.
  intros H; unfold Double.calculateTruckDuration.
  destruct (lebP distance 15); [reflexivity | lra].
Qed.

(** Up to 100 km the computed driving time stays below 4.5 hours. *)
Lemma double_no_rest_stop :
  15 < distance -> distance <= 100 -> Double.longRestStops distance = 0%Z.
Proof.
  intros Hlo Hhi.
  unfold Double.longRestStops, Double.drivingHours, F64.div, JS.Math_floor.
  destruct (baseSpeed_tier distance) as [[H _] | [[H ->] | [H ->]]];
    [lra | |];
    unfold truckSpeeds.trunk, truckSpeeds.primary;
    unfold Qdiv; cbn [Qinv Qnum Qden];
    enclose 1%Z; enclose 0%Z; apply Qfloor_unique;
    change (inject_Z 0) with 0; lra.
Qed.

End DoubleTiers.

Section DoubleEnclosures.

Variable distance : Q.

(** On the short branch the rounded sum is within [2^-40] of
    [2.88 d + 15]. *)
Lemma double_short_enclosure :
  0 <= distance -> distance <= 15 ->
  Qabs (F64.add (F64.add (Double.baseMinutes distance) loadUnloadTime)
                (Double.trafficBuffer distance)
        - (2.88 * distance + 15)) <= 1 # 1099511627776.
Proof.
  intros H0 H15; unfold_double; rewrite round_0_2.
  unfold Qdiv; cbn [Qinv Qnum Qden].
  enclose 0%Z; enclose 6%Z; enclose 7%Z; enclose 4%Z; enclose 7%Z.
  apply Qabs_Qle_condition; split; lra.
Qed.

(** The value of [duration] after the loading delay, from 15 to 50 km,
    from 50 to 100 km and from 100 to 1 000 000 km. *)
Lemma double_loading_primary :
  15 < distance -> distance <= 50 ->
  Qabs (Double.duration_loading distance - (1.44 * distance + 20))
    <= 1 # 1099511627776.
Proof.
  intros Hlo Hhi.
  unfold Double.duration_loading, Double.duration_rest, Double.restTime.
  rewrite double_no_rest_stop, no_rest_time by lra.
  unfold truckFactors.loadingUnloading.
  destruct (gtbP distance 50); [lra |].
  unfold_double; rewrite round_1_2.
  destruct (baseSpeed_tier distance) as [[H _] | [[H _] | [_ ->]]];
    [lra | lra |].
  unfold truckSpeeds.primary, Qdiv; cbn [Qinv Qnum Qden].
  enclose 0%Z; enclose 6%Z; enclose 7%Z; enclose 7%Z; enclose 7%Z.
  apply Qabs_Qle_condition; split; lra.
Qed.



End DoubleEnclosures.

Lemma F64_mul_comm (x y : Q) : F64.mul x y = F64.mul y x.
Proof. apply round_comp; ring. Qed.


(** Where binary64 and exact arithmetic part: four distances on which the
    sum to be rounded falls on the other side of a half minute. *)
Lemma half_minute_cases :
  Double.calculateTruckDuration (F64.round 61.25) "" =
    {| duration := 103; restStops := 0 |} /\
  Double.calculateTruckDuration (F64.round 0.17361111111111094) "" =
    {| duration := 16; restStops := 0 |} /\
  Double.calculateTruckDuration (F64.round 23.958333333333332) "" =
    {| duration := 65; restStops := 0 |} /\
  Double.calculateTruckDuration (F64.round 469.4444444444444) "" =
    {| duration := 513; restStops := 1 |}.
Proof. repeat split; vm_compute; reflexivity. Qed.

(** The worked distances: the binary64 estimator on 10, 15, 16, 60, 120 and
    400 km. *)
Lemma double_worked_values (routeType : string) :
  Double.calculateTruckDuration 10 routeType =
    {| duration := 44; restStops := 0 |} /\
  Double.calculateTruckDuration 15 routeType =
    {| duration := 58; restStops := 0 |} /\
  Double.calculateTruckDuration 16 routeType =
    {| duration := 53; restStops := 0 |} /\
  Double.calculateTruckDuration 60 routeType =
    {| duration := 102; restStops := 0 |} /\
  Double.calculateTruckDuration 120 routeType =
    {| duration := 153; restStops := 0 |} /\
  Double.calculateTruckDuration 400 routeType =
    {| duration := 450; restStops := 1 |}.
Proof. repeat split; vm_compute; reflexivity. Qed.


(** ** City-access delay (lines 125 and 148-150) *)

(** C1, as stated, fails at 20 km: the distance lies strictly between 15 and
    50, and the delay added on line 149 is 10 minutes, not 20; the estimate
    is 59 minutes, where 20 minutes would have given 69. *)
Lemma city_access_20km_is_10 :
  15 < 20 /\ 20 < 50 /\
  Double.duration_city 20 = F64.add (Double.duration_loading 20) 10 /\
  ~ Double.duration_city 20 == F64.add (Double.duration_loading 20) 20 /\
  Double.calculateTruckDuration 20 "" = {| duration := 59; restStops := 0 |} /\
  JS.Math_round (F64.add (Double.duration_loading 20) 20) = 69%Z.
Proof.
  split; [reflexivity | split; [reflexivity |]].
  split; [vm_compute; reflexivity |].
  split; [| split; vm_compute; reflexivity].
  intros H.
  assert (Qeq_bool (Double.duration_city 20)
            (F64.add (Double.duration_loading 20) 20) = true) as Hb
    by now apply Qeq_bool_iff.
  vm_compute in Hb; discriminate.
Qed.

(** C1, amended: on the long-distance branch the city-access step adds 10
    minutes up to 30 km, 20 minutes strictly between 30 and 50 km, and is
    skipped from 50 km on.  The addition is a binary64 addition: its result
    is within [2^-46] of the exact sum, and it is the number that is
    rounded to the returned minutes. *)
Theorem city_access_delay (distance : Q) (routeType : string) :
  15 < distance ->
  (distance <= 30 ->
     Double.duration_city distance =
       F64.add (Double.duration_loading distance) 10 /\
     Qabs (Double.duration_city distance
           - (Double.duration_loading distance + 10))
       <= 1 # 70368744177664 /\
     duration (Double.calculateTruckDuration distance routeType) =
       JS.Math_round (F64.add (Double.duration_loading distance) 10)) /\
  (30 < distance -> distance < 50 ->
     Double.duration_city distance =
       F64.add (Double.duration_loading distance) 20 /\
     Qabs (Double.duration_city distance
           - (Double.duration_loading distance + 20))
       <= 1 # 70368744177664 /\
     duration (Double.calculateTruckDuration distance routeType) =
       JS.Math_round (F64.add (Double.duration_loading distance) 20)) /\
  (50 <= distance ->
     Double.duration_city distance = Double.duration_loading distance /\
     duration (Double.calculateTruckDuration distance routeType) =
       JS.Math_round
         (if JS.gtb distance 100
          then F64.add (Double.duration_loading distance)
                 truckFactors.weightStations
          else Double.duration_loading distance)).
Proof.
  intros Hlong; rewrite (double_long_haul distance routeType Hlong).
  cbn [duration].
  unfold Double.duration_weight, Double.duration_city,
    truckFactors.cityAccess.
  split; [| split].
  - intros H30.
    destruct (ltbP distance 50); [| lra].
    destruct (gtbP distance 30); [lra |].
    destruct (gtbP distance 100); [lra |].
    split; [reflexivity | split; [| reflexivity]].
    pose proof (double_loading_primary distance Hlong ltac:(lra)) as He.
    apply Qabs_Qle_condition in He.
    unfold F64.add.
    round_bound (Double.duration_loading distance + 10) 7%Z.
    apply Qabs_Qle_condition; split; lra.
  - intros H30 H50.
    destruct (ltbP distance 50); [| lra].
    destruct (gtbP distance 30); [| lra].
    destruct (gtbP distance 100); [lra |].
    split; [reflexivity | split; [| reflexivity]].
    pose proof (double_loading_primary distance Hlong ltac:(lra)) as He.
    apply Qabs_Qle_condition in He.
    unfold F64.add.
    round_bound (Double.duration_loading distance + 20) 7%Z.
    apply Qabs_Qle_condition; split; lra.
  - intros H50.
    destruct (ltbP distance 50); [lra |].
    split; reflexivity.
Qed.

Lemma city_access_delay_witness :
  (Double.duration_city 20 = F64.add (Double.duration_loading 20) 10 /\
   Qabs (Double.duration_city 20 - (Double.duration_loading 20 + 10))
     <= 1 # 70368744177664 /\
   duration (Double.calculateTruckDuration 20 "") =
     JS.Math_round (F64.add (Double.duration_loading 20) 10)) /\
  (Double.duration_city 40 = F64.add (Double.duration_loading 40) 20 /\
   Qabs (Double.duration_city 40 - (Double.duration_loading 40 + 20))
     <= 1 # 70368744177664 /\
   duration (Double.calculateTruckDuration 40 "") =
     JS.Math_round (F64.add (Double.duration_loading 40) 20)) /\
  (Double.duration_city 60 = Double.duration_loading 60 /\
   duration (Double.calculateTruckDuration 60 "") =
     JS.Math_round
       (if JS.gtb 60 100
        then F64.add (Double.duration_loading 60) truckFactors.weightStations
        else Double.duration_loading 60)).
Proof.
  split; [| split].
  - destruct (city_access_delay 20 "") as (H & _ & _); [reflexivity |].
    apply H; discriminate.
  - destruct (city_access_delay 40 "") as (_ & H & _); [reflexivity |].
    apply H; reflexivity.
  - destruct (city_access_delay 60 "") as (_ & _ & H); [reflexivity |].
    apply H; discriminate.
Defined.

(** ** Worked values and branch boundaries *)

(** C2: at 400 km the estimator selects the motorway speed, drives 300
    minutes, scales them to 360, adds one 45-minute rest, 30 minutes of
    loading and 15 minutes of weight stations, and returns 450 minutes with
    one rest stop. *)
Theorem estimate_400km (routeType : string) :
  baseSpeed 400 = truckSpeeds.motorway /\
  truckSpeeds.motorway = 80 /\
  duration_drive 400 == 300 /\
  duration_factor 400 == 300 * 1.2 /\
  restTime 400 == 45 /\
  truckFactors.loadingUnloading 400 = 30 /\
  duration_weight 400 == 300 * 1.2 + 45 + 30 + 15 /\
  calculateTruckDuration 400 routeType =
    {| duration := 450; restStops := 1 |}.
Proof. repeat split. Qed.

(** C4: the comparisons at 50 and 100 km are strict.  Exactly 50 km is
    estimated with the primary speed of 50 km/h and the 20-minute loading
    delay, 92 minutes; exactly 100 km with the trunk speed of 60 km/h and no
    weight-station delay, 150 minutes.  In general the speed and the two
    delays change only strictly above the thresholds, and the estimate is
    computed from them. *)
Theorem tier_boundaries_strict (routeType : string) :
  (baseSpeed 50 = truckSpeeds.primary /\ truckSpeeds.primary = 50 /\
   truckFactors.loadingUnloading 50 = 20 /\
   Double.calculateTruckDuration 50 routeType =
     {| duration := 92; restStops := 0 |} /\
   duration (Double.calculateTruckDuration 50 routeType) =
     JS.Math_round
       (F64.add
          (F64.add
             (F64.mul (F64.mul (F64.div 50 truckSpeeds.primary) 60)
                      (F64.round timeFactors.normal))
             0)
          20)) /\
  (baseSpeed 100 = truckSpeeds.trunk /\ truckSpeeds.trunk = 60 /\
   Double.duration_weight 100 = Double.duration_city 100 /\
   Double.calculateTruckDuration 100 routeType =
     {| duration := 150; restStops := 0 |} /\
   duration (Double.calculateTruckDuration 100 routeType) =
     JS.Math_round
       (F64.add
          (F64.add
             (F64.mul (F64.mul (F64.div 100 truckSpeeds.trunk) 60)
                      (F64.round timeFactors.normal))
             0)
          30)) /\
  (forall distance : Q,
     (baseSpeed distance = truckSpeeds.motorway <-> 100 < distance) /\
     (baseSpeed distance = truckSpeeds.trunk <-> 50 < distance <= 100) /\
     (baseSpeed distance = truckSpeeds.primary <-> distance <= 50) /\
     (truckFactors.loadingUnloading distance = 30 <-> 50 < distance) /\
     (truckFactors.loadingUnloading distance = 20 <-> distance <= 50) /\
     (100 < distance ->
      Double.duration_weight distance =
        F64.add (Double.duration_city distance) truckFactors.weightStations) /\
     (distance <= 100 ->
      Double.duration_weight distance = Double.duration_city distance) /\
     (15 < distance ->
      duration (Double.calculateTruckDuration distance routeType) =
        JS.Math_round (Double.duration_weight distance) /\
      Double.duration_loading distance =
        F64.add
          (F64.add
             (F64.mul (F64.mul (F64.div distance (baseSpeed distance)) 60)
                      (F64.round timeFactors.normal))
             (Double.restTime distance))
          (truckFactors.loadingUnloading distance))).
Proof.
  split; [| split].
  - repeat split; vm_compute; reflexivity.
  - repeat split; vm_compute; reflexivity.
  - intros distance.
    assert (15 < distance ->
            duration (Double.calculateTruckDuration distance routeType) =
              JS.Math_round (Double.duration_weight distance) /\
            Double.duration_loading distance =
              F64.add
                (F64.add
                   (F64.mul
                      (F64.mul (F64.div distance (baseSpeed distance)) 60)
                      (F64.round timeFactors.normal))
                   (Double.restTime distance))
                (truckFactors.loadingUnloading distance)) as Hest.
    { intros Hlong; rewrite double_long_haul by assumption.
      split; reflexivity. }
    assert ((baseSpeed distance = truckSpeeds.motorway <-> 100 < distance) /\
            (baseSpeed distance = truckSpeeds.trunk <->
             50 < distance <= 100) /\
            (baseSpeed distance = truckSpeeds.primary <-> distance <= 50) /\
            (truckFactors.loadingUnloading distance = 30 <-> 50 < distance) /\
            (truckFactors.loadingUnloading distance = 20 <-> distance <= 50))
      as (S1 & S2 & S3 & S4 & S5).
    { unfold baseSpeed, truckFactors.loadingUnloading,
        truckSpeeds.motorway, truckSpeeds.trunk, truckSpeeds.primary.
      js_cases; repeat split; intros; try lra; try reflexivity;
        try discriminate. }
    assert ((100 < distance ->
             Double.duration_weight distance =
               F64.add (Double.duration_city distance)
                 truckFactors.weightStations) /\
            (distance <= 100 ->
             Double.duration_weight distance = Double.duration_city distance))
      as (W1 & W2).
    { unfold Double.duration_weight.
      destruct (gtbP distance 100); split; intros; try lra; reflexivity. }
    exact (conj S1 (conj S2 (conj S3 (conj S4 (conj S5
             (conj W1 (conj W2 Hest))))))).
Qed.

Lemma tier_boundaries_strict_witness :
  Double.duration_weight 75 = Double.duration_city 75 /\
  duration (Double.calculateTruckDuration 75 "") =
    JS.Math_round (Double.duration_weight 75).
Proof.
  destruct (tier_boundaries_strict "") as (_ & _ & H).
  destruct (H 75) as (_ & _ & _ & _ & _ & _ & W & E).
  split; [apply W; discriminate | apply E; reflexivity].
Defined.

(** C5: every distance between 0 and 15 km, 15 included, takes the
    short-distance branch: no rest stop, and the rounded sum of the travel
    time at 25 km/h, 15 minutes and the 20% buffer, each operation being the
    binary64 one; that sum is within [2^-40] of the same formula in exact
    arithmetic.  At exactly 15 km the result is 58 minutes. *)
Theorem short_haul_estimate (distance : Q) (routeType : string) :
  0 <= distance -> distance <= 15 ->
  restStops (Double.calculateTruckDuration distance routeType) = 0%Z /\
  duration (Double.calculateTruckDuration distance routeType) =
    JS.Math_round
      (F64.add
         (F64.add (F64.mul (F64.div distance 25) 60) 15)
         (F64.mul (F64.round 0.2) (F64.mul (F64.div distance 25) 60))) /\
  Qabs
    (F64.add
       (F64.add (F64.mul (F64.div distance 25) 60) 15)
       (F64.mul (F64.round 0.2) (F64.mul (F64.div distance 25) 60))
     - ((distance / 25) * 60 + 15 + 0.2 * ((distance / 25) * 60)))
    <= 1 # 1099511627776 /\
  Double.calculateTruckDuration 15 routeType =
    {| duration := 58; restStops := 0 |}.
Proof.
  intros Hpos Hshort; rewrite (double_short_haul distance routeType Hshort).
  cbn [duration restStops].
  rewrite (F64_mul_comm (F64.round 0.2)).
  change (F64.mul (F64.div distance 25) 60)
    with (Double.baseMinutes distance).
  change (F64.mul (Double.baseMinutes distance) (F64.round 0.2))
    with (Double.trafficBuffer distance).
  split; [reflexivity | split; [reflexivity |]].
  split; [| vm_compute; reflexivity].
  pose proof (double_short_enclosure distance Hpos Hshort) as He.
  unfold loadUnloadTime in He.
  assert (distance / 25 * 60 + 15 + 0.2 * (distance / 25 * 60) ==
          2.88 * distance + 15) as -> by field.
  exact He.
Qed.

Lemma short_haul_estimate_witness :
  restStops (Double.calculateTruckDuration 10 "") = 0%Z /\
  duration (Double.calculateTruckDuration 10 "") =
    JS.Math_round
      (F64.add
         (F64.add (F64.mul (F64.div 10 25) 60) 15)
         (F64.mul (F64.round 0.2) (F64.mul (F64.div 10 25) 60))).
Proof.
  destruct (short_haul_estimate 10 "") as (H1 & H2 & _);
    [discriminate | discriminate |].
  exact (conj H1 H2).
Defined.

(** ** Purity *)

(** The estimator respects equality of numbers: two representations of the
    same rational give the same estimate. *)
Lemma calculateTruckDuration_comp (d1 d2 : Q) (h1 h2 : string) :
  d1 == d2 -> calculateTruckDuration d1 h1 = calculateTruckDuration d2 h2.
Proof.
  intros H.
  assert (forall c, Qle_bool d1 c = Qle_bool d2 c) as Hle
    by (intros c; now rewrite H).
  assert (baseSpeed d1 = baseSpeed d2) as Hs
    by (unfold baseSpeed, JS.gtb; now rewrite !Hle).
  assert (longRestStops d1 = longRestStops d2) as Hr.
  { unfold longRestStops, drivingHours, JS.Math_floor.
    rewrite Hs; apply Qfloor_comp; now rewrite H. }
  unfold calculateTruckDuration, JS.leb; rewrite Hle.
  destruct (Qle_bool d2 15); f_equal; try assumption;
    apply Math_round_comp.
  - unfold trafficBuffer, baseMinutes, loadUnloadTime; now rewrite H.
  - unfold_estimator; unfold JS.gtb, JS.ltb.
    rewrite Hs, Hr, !Hle.
    assert (Qle_bool 50 d1 = Qle_bool 50 d2) as -> by now rewrite H.
    destruct (Qle_bool 50 d2), (Qle_bool d2 100), (Qle_bool d2 50),
      (Qle_bool d2 30); simpl; now rewrite H.
Qed.

(** C8: the estimate is a function of the distance alone.  The route-type
    hint is never read, so any two hints give the same record; the same
    arguments give the same record, and so does the same number written as
    another fraction. *)
Theorem hint_is_ignored (distance : Q) (h1 h2 : string) :
  calculateTruckDuration distance h1 = calculateTruckDuration distance h2 /\
  calculateTruckDuration distance h1 = calculateTruckDuration distance h1 /\
  (forall distance' : Q,
     distance == distance' ->
     calculateTruckDuration distance h1 = calculateTruckDuration distance' h2).
Proof.
  split; [reflexivity | split; [reflexivity |]].
  intros distance' H; now apply calculateTruckDuration_comp.
Qed.

Lemma hint_is_ignored_witness :
  calculateTruckDuration (21 # 2) "A1" =
    calculateTruckDuration (42 # 4) "M25".
Proof. apply (hint_is_ignored (21 # 2) "A1" "M25"); reflexivity. Defined.

(** ** The 15 km boundary *)

(** C9: the estimate drops when the distance crosses 15 km: 58 minutes at
    15 km, 53 minutes at 16 km. *)
Theorem not_monotone_across_15km (routeType : string) :
  duration (calculateTruckDuration 15 routeType) = 58%Z /\
  duration (calculateTruckDuration 16 routeType) = 53%Z /\
  exists d1 d2 : Q,
    d1 < d2 /\
    (duration (calculateTruckDuration d2 routeType) <
     duration (calculateTruckDuration d1 routeType))%Z.
Proof.
  split; [reflexivity | split; [reflexivity |]].
  exists 15, 16; split; reflexivity.
Qed.

(** ** Rest stops (lines 137-145) *)

Section RestStops.

Variable distance : Q.

(** The driving time in units of 4.5 hours, tier by tier. *)
Lemma driving_segments :
  (100 < distance /\ drivingHours distance / 4.5 == distance / 360) \/
  (50 < distance <= 100 /\ drivingHours distance / 4.5 == distance / 270) \/
  (distance <= 50 /\ drivingHours distance / 4.5 == distance / 225).
Proof.
  unfold drivingHours.
  destruct (baseSpeed_tier distance) as [[H ->] | [[H ->] | [H ->]]];
    [left | right; left | right; right]; (split; [exact H |]);
    unfold truckSpeeds.motorway, truckSpeeds.trunk, truckSpeeds.primary;
    field.
Qed.


Lemma longRestStops_nonneg :
  0 <= distance -> (0 <= longRestStops distance)%Z.
Proof.
  intros H; unfold longRestStops, JS.Math_floor.
  change 0%Z with (Qfloor 0); apply Qfloor_resp_le.
  destruct driving_segments as [[_ ->] | [[_ ->] | [_ ->]]]; qlra.
Qed.

Lemma longRestStops_below_360 :
  distance < 360 -> (longRestStops distance <= 0)%Z.
Proof.
  intros H; unfold longRestStops, JS.Math_floor.
  pose proof (Qfloor_le (drivingHours distance / 4.5)) as Hfl.
  assert (inject_Z (Qfloor (drivingHours distance / 4.5)) < inject_Z 1)
    as Hlt.
  { change (inject_Z 1) with 1.
    destruct driving_segments as [[? Hs] | [[? Hs] | [? Hs]]]; qlra. }
  rewrite <- Zlt_Qlt in Hlt; lia.
Qed.

Lemma longRestStops_from_360 :
  360 <= distance -> (1 <= longRestStops distance)%Z.
Proof.
  intros H; unfold longRestStops, JS.Math_floor.
  change 1%Z with (Qfloor 1); apply Qfloor_resp_le.
  destruct driving_segments as [[? ->] | [[? ->] | [? ->]]]; qlra.
Qed.

End RestStops.



(** C10: no rest stop below 360 km, at least one from 360 km on: 4.5 hours
    at the motorway speed of 80 km/h. *)
Theorem first_rest_stop_at_360km (distance : Q) (routeType : string) :
  (distance < 360 ->
     restStops (calculateTruckDuration distance routeType) = 0%Z) /\
  (360 <= distance ->
     (1 <= restStops (calculateTruckDuration distance routeType))%Z).
Proof.
  destruct (Qlt_le_dec 15 distance) as [Hlong | Hshort].
  - rewrite (long_haul distance routeType Hlong); cbn [restStops].
    split; intros H.
    + pose proof (longRestStops_below_360 distance H) as Hle.
      assert (0 <= distance) as Hpos by lra.
      pose proof (longRestStops_nonneg distance Hpos) as Hge.
      lia.
    + now apply longRestStops_from_360.
  - rewrite (short_haul distance routeType Hshort); cbn [restStops].
    split; [reflexivity | lra].
Qed.

Lemma first_rest_stop_at_360km_witness :
  restStops (calculateTruckDuration 359 "") = 0%Z /\
  (1 <= restStops (calculateTruckDuration 360 ""))%Z.
Proof.
  split.
  - apply (first_rest_stop_at_360km 359 ""); reflexivity.
  - apply (first_rest_stop_at_360km 360 ""); discriminate.
Defined.

(** ** Sign and totality *)

Section NonNegative.

Variable distance : Q.
Hypothesis distance_nonneg : 0 <= distance.




End NonNegative.



(** ** Monotonicity inside a tier *)

Section Monotone.

Variables d1 d2 : Q.
Hypothesis d1_le_d2 : d1 <= d2.




Hypothesis same_speed : baseSpeed d1 = baseSpeed d2.




Hypothesis same_city_test : JS.ltb d1 50 = JS.ltb d2 50.


End Monotone.



(** ** The formatter on whole minutes *)

Lemma Math_round_Z (n : Z) : JS.Math_round (inject_Z n) = n.
Proof. apply Qfloor_unique; lra. Qed.

Lemma Qfloor_div_60 (n : Z) : Qfloor (inject_Z n / 60) = (n / 60)%Z.
Proof. symmetry; exact (Zdiv_Qdiv n 60). Qed.

Section WholeMinutes.

Variable m : Z.

Lemma Math_trunc_div_60 : Math_trunc (inject_Z m / 60) = (m ÷ 60)%Z.
Proof.
  unfold Math_trunc.
  destruct (Z.le_gt_cases 0 m) as [Hpos | Hneg].
  - assert (0 <= inject_Z m) as H by (change 0 with (inject_Z 0); now rewrite <- Zle_Qle).
    assert (Qle_bool 0 (inject_Z m / 60) = true) as ->
      by (apply Qle_bool_iff; qlra).
    rewrite Qfloor_div_60, Z.quot_div_nonneg; lia.
  - assert (inject_Z m < 0) as H by (change 0 with (inject_Z 0); now rewrite <- Zlt_Qlt).
    assert (Qle_bool 0 (inject_Z m / 60) = false) as ->.
    { apply not_true_is_false; rewrite Qle_bool_iff; qlra. }
    unfold Qceiling.
    assert (- (inject_Z m / 60) == inject_Z (- m) / 60) as ->
      by (rewrite inject_Z_opp; field).
    rewrite Qfloor_div_60, <- (Z.quot_div_nonneg (- m) 60) by lia.
    rewrite Z.quot_opp_l by lia; lia.
Qed.

Lemma formatDuration_hours_Z :
  formatDuration_hours (inject_Z m) = (m / 60)%Z.
Proof. exact (Qfloor_div_60 m). Qed.

Lemma formatDuration_remainingMinutes_Z :
  formatDuration_remainingMinutes (inject_Z m) = Z.rem m 60.
Proof.
  unfold formatDuration_remainingMinutes, Number_remainder.
  rewrite Math_trunc_div_60, <- Math_round_Z.
  apply Math_round_comp.
  pose proof (Z.quot_rem' m 60) as H.
  assert (Z.rem m 60 = m + - (60 * (m ÷ 60)))%Z as -> by lia.
  rewrite inject_Z_plus, inject_Z_opp, inject_Z_mult.
  change (inject_Z 60) with 60; ring.
Qed.

End WholeMinutes.

Lemma div_mod_60 (m h r : Z) :
  (m = 60 * h + r)%Z -> (0 <= r < 60)%Z ->
  (m / 60)%Z = h /\ (m mod 60)%Z = r.
Proof.
  intros Hm Hr; split; symmetry.
  - apply (Z.div_unique m 60 h r); [left; exact Hr | exact Hm].
  - apply (Z.mod_unique m 60 h r); [left; exact Hr | exact Hm].
Qed.

Lemma formatDuration_parts (m h r : Z) :
  (m = 60 * h + r)%Z -> (0 <= h)%Z -> (0 <= r < 60)%Z ->
  formatDuration_hours (inject_Z m) = h /\
  formatDuration_remainingMinutes (inject_Z m) = r.
Proof.
  intros Hm Hh Hr.
  destruct (div_mod_60 m h r Hm Hr) as [Hd Hmod].
  rewrite formatDuration_hours_Z, formatDuration_remainingMinutes_Z.
  rewrite Z.rem_mod_nonneg by lia.
  now split.
Qed.

(** X1: on a whole, non-negative number of minutes the text is the
    quotient and the remainder by 60: minutes alone below one hour, hours
    alone on a multiple of 60, both otherwise. *)
Theorem formatDuration_whole_minutes (toString : Z -> string) (m : Z) :
  (0 <= m)%Z ->
  ((m < 60)%Z ->
     formatDuration toString (inject_Z m) = (toString m ++ " mins")%string) /\
  (forall h : Z, (1 <= h)%Z -> (m = 60 * h)%Z ->
     formatDuration toString (inject_Z m) =
       (toString h ++ " " ++ hourWord h)%string) /\
  (forall h r : Z, (1 <= h)%Z -> (0 < r < 60)%Z -> (m = 60 * h + r)%Z ->
     formatDuration toString (inject_Z m) =
       (toString h ++ " " ++ hourWord h ++ " " ++
        toString r ++ " mins")%string).
Proof.
  intros Hm; unfold formatDuration; repeat split.
  - intros Hlt.
    destruct (formatDuration_parts m 0 m) as [-> ->]; [lia .. |].
    reflexivity.
  - intros h Hh Heq.
    destruct (formatDuration_parts m h 0) as [-> ->]; [lia .. |].
    destruct (Z.eqb_spec h 0); [lia | reflexivity].
  - intros h r Hh Hr Heq.
    destruct (formatDuration_parts m h r) as [-> ->]; [lia .. |].
    destruct (Z.eqb_spec h 0); [lia |].
    destruct (Z.eqb_spec r 0); [lia | reflexivity].
Qed.

Lemma formatDuration_whole_minutes_witness :
  formatDuration decimal 45 = "45 mins"%string /\
  formatDuration decimal 60 = "1 hour"%string /\
  formatDuration decimal 450 = "7 hours 30 mins"%string.
Proof.
  split; [| split].
  - destruct (formatDuration_whole_minutes decimal 45) as [H _]; [lia |].
    apply H; lia.
  - destruct (formatDuration_whole_minutes decimal 60) as [_ [H _]]; [lia |].
    apply (H 1%Z); lia.
  - destruct (formatDuration_whole_minutes decimal 450) as [_ [_ H]]; [lia |].
    apply (H 7%Z 30%Z); lia.
Defined.

(** X2: the rounded remainder is never carried into the hours.  From half a
    minute before a full hour on, the formatter shows 60 minutes beside the
    hours already completed. *)
Theorem formatDuration_no_carry (toString : Z -> string) (k : Z) (f : Q) :
  (0 <= k)%Z -> 59.5 <= f -> f < 60 ->
  formatDuration_hours (inject_Z (60 * k) + f) = k /\
  formatDuration_remainingMinutes (inject_Z (60 * k) + f) = 60%Z /\
  formatDuration toString (inject_Z (60 * k) + f) =
    if (k =? 0)%Z then (toString 60%Z ++ " mins")%string
    else (toString k ++ " " ++ hourWord k ++ " " ++
          toString 60%Z ++ " mins")%string.
Proof.
  intros Hk Hlo Hhi.
  assert (0 <= inject_Z k) as Hk'
    by (change 0 with (inject_Z 0); now rewrite <- Zle_Qle).
  assert (Qfloor ((inject_Z (60 * k) + f) / 60) = k) as Hfloor.
  { apply Qfloor_unique; rewrite inject_Z_mult; change (inject_Z 60) with 60;
      qlra. }
  assert (formatDuration_hours (inject_Z (60 * k) + f) = k) as Hh
    by exact Hfloor.
  assert (formatDuration_remainingMinutes (inject_Z (60 * k) + f) = 60%Z)
    as Hr.
  { unfold formatDuration_remainingMinutes, Number_remainder, Math_trunc.
    assert (Qle_bool 0 ((inject_Z (60 * k) + f) / 60) = true) as ->.
    { apply Qle_bool_iff; rewrite inject_Z_mult;
        change (inject_Z 60) with 60; qlra. }
    rewrite Hfloor.
    apply Qfloor_unique; rewrite inject_Z_mult;
      change (inject_Z 60) with 60; lra. }
  split; [exact Hh | split; [exact Hr |]].
  unfold formatDuration; rewrite Hh, Hr.
  destruct (Z.eqb_spec k 0); reflexivity.
Qed.

Lemma formatDuration_no_carry_witness :
  formatDuration_hours (inject_Z (60 * 1) + 59.5) = 1%Z /\
  formatDuration_remainingMinutes (inject_Z (60 * 1) + 59.5) = 60%Z /\
  formatDuration decimal (inject_Z (60 * 1) + 59.5) =
    "1 hour 60 mins"%string.
Proof.
  apply (formatDuration_no_carry decimal 1 59.5);
    [lia | discriminate | reflexivity].
Defined.

(** X3: below zero the hours are rounded down while the remainder keeps the
    sign of the input.  On a negative whole number of minutes that is not a
    multiple of 60 the text shows both parts, the hours [m / 60] rounded
    down and the minutes [m rem 60], both negative, and the two add up to one
    hour less than the input. *)
Theorem formatDuration_negative_parts (toString : Z -> string) (m : Z) :
  (m < 0)%Z -> (m mod 60 <> 0)%Z ->
  formatDuration toString (inject_Z m) =
    (toString (m / 60)%Z ++ " hours " ++
     toString (Z.rem m 60) ++ " mins")%string /\
  (m / 60 < 0)%Z /\ (Z.rem m 60 < 0)%Z /\
  (60 * (m / 60) + Z.rem m 60 = m - 60)%Z /\
  formatDuration_hours (inject_Z m) = (m / 60)%Z /\
  formatDuration_remainingMinutes (inject_Z m) = Z.rem m 60.
Proof.
  intros Hneg Hmod.
  assert ((m / 60 < 0)%Z /\ (Z.rem m 60 < 0)%Z /\
          (60 * (m / 60) + Z.rem m 60 = m - 60)%Z) as (Hh & Hr & Hsum)
    by (Z.to_euclidean_division_equations; lia).
  split; [| repeat split; try assumption;
            [apply formatDuration_hours_Z
            | apply formatDuration_remainingMinutes_Z]].
  unfold formatDuration.
  rewrite formatDuration_hours_Z, formatDuration_remainingMinutes_Z.
  destruct (Z.eqb_spec (m / 60) 0) as [E | _]; [lia |].
  destruct (Z.eqb_spec (Z.rem m 60) 0) as [E | _]; [lia |].
  unfold hourWord.
  destruct (Z.eqb_spec (m / 60) 1) as [E | _]; [lia | reflexivity].
Qed.

Lemma formatDuration_negative_parts_witness :
  formatDuration decimal (inject_Z (-30)) = "-1 hours -30 mins"%string /\
  (-30 / 60 < 0)%Z /\ (Z.rem (-30) 60 < 0)%Z /\
  (60 * (-30 / 60) + Z.rem (-30) 60 = -30 - 60)%Z /\
  formatDuration_hours (inject_Z (-30)) = (-30 / 60)%Z /\
  formatDuration_remainingMinutes (inject_Z (-30)) = Z.rem (-30) 60.
Proof.
  apply (formatDuration_negative_parts decimal (-30)); [lia | discriminate].
Defined.

(** ** The estimate as a piecewise-linear function *)

Section ClosedForm.

Variable distance : Q.

Lemma longRestStops_motorway :
  100 < distance -> longRestStops distance = Qfloor (distance / 360).
Proof.
  intros H; unfold longRestStops, JS.Math_floor.
  destruct (driving_segments distance) as [[_ Hs] | [[? _] | [? _]]];
    [now rewrite Hs | lra | lra].
Qed.





End ClosedForm.






(** X5: the number of rest stops counts the completed stretches of 360 km:
    for [k >= 1] the estimator returns [k] stops exactly on the distances
    from [360 k] up to, and not including, [360 (k + 1)]. *)
Theorem rest_stop_every_360km (distance : Q) (routeType : string) (k : Z) :
  (1 <= k)%Z ->
  restStops (calculateTruckDuration distance routeType) = k <->
  inject_Z (360 * k) <= distance /\ distance < inject_Z (360 * (k + 1)).
Proof.
  intros Hk.
  assert (1 <= inject_Z k) as Hk'
    by (change 1 with (inject_Z 1); now rewrite <- Zle_Qle).
  rewrite !inject_Z_mult, inject_Z_plus.
  change (inject_Z 360) with 360; change (inject_Z 1) with 1.
  destruct (Qlt_le_dec 100 distance) as [Hm | Hlow].
  - rewrite long_haul by lra; cbn [restStops].
    rewrite (longRestStops_motorway distance Hm).
    destruct (Qfloor_bounds (distance / 360)) as [Hlo Hhi].
    split.
    + intros <-; qlra.
    + intros [H1 H2]; apply Qfloor_unique; qlra.
  - split; [| intros [H1 H2]; lra].
    intros Hstops; exfalso.
    destruct (Qlt_le_dec 15 distance) as [Hlong | Hshort].
    + rewrite long_haul in Hstops by assumption; cbn [restStops] in Hstops.
      assert (distance < 360) as H360 by lra.
      pose proof (longRestStops_below_360 distance H360); lia.
    + rewrite short_haul in Hstops by assumption; cbn [restStops] in Hstops.
      lia.
Qed.

Lemma rest_stop_every_360km_witness :
  restStops (calculateTruckDuration 800 "") = 2%Z <->
  inject_Z (360 * 2) <= 800 /\ 800 < inject_Z (360 * (2 + 1)).
Proof. apply (rest_stop_every_360km 800 "" 2); lia. Defined.









(** ** The route request *)


Lemma swapCoord_involutive (coord : Q * Q) : swapCoord (swapCoord coord) = coord.
Proof. now destruct coord. Qed.

Lemma map_swapCoord_involutive (l : list (Q * Q)) :
  map swapCoord (map swapCoord l) = l.
Proof.
  induction l as [| c l IH]; simpl; [reflexivity |].
  now rewrite swapCoord_involutive, IH.
Qed.

(** [getRoute] returns exactly on the replies with code [Ok], a first route
    and a first leg of that route, and then returns the object built on
    lines 173-193. *)
Lemma getRoute_inl (w : World) (from to : Location (number w))
    (routeData : RouteData.t) :
  getRoute w from to = inl routeData <->
  exists data primaryRoute others leg legs,
    osrm w from to = Body data /\
    Osrm.code data = "Ok"%string /\
    Osrm.routes data = primaryRoute :: others /\
    Osrm.legs primaryRoute = leg :: legs /\
    routeData =
      {| RouteData.coordinates :=
           map swapCoord (Osrm.coordinates (Osrm.geometry primaryRoute));
         RouteData.distance := Osrm.distance primaryRoute / 1000;
         RouteData.duration :=
           duration (calculateTruckDuration
                       (Osrm.distance primaryRoute / 1000) (Osrm.summary leg));
         RouteData.restStops :=
           restStops (calculateTruckDuration
                        (Osrm.distance primaryRoute / 1000) (Osrm.summary leg));
         RouteData.alternatives :=
           map (fun route =>
                  map swapCoord (Osrm.coordinates (Osrm.geometry route)))
               others |}.
Proof.
  unfold getRoute, getRoute_try.
  destruct (osrm w from to) as [e | data].
  { split; [discriminate | intros (? & ? & ? & ? & ? & [=] & _)]. }
  destruct (String.eqb_spec (Osrm.code data) "Ok") as [Hcode | Hcode];
    cbn [negb].
  2: { split; [discriminate |].
       intros (? & ? & ? & ? & ? & [= <-] & Hc & _); contradiction. }
  destruct (Osrm.routes data) as [| primaryRoute others] eqn:Hroutes;
    cbn [nth_error skipn].
  { split; [discriminate |].
    intros (? & ? & ? & ? & ? & [= <-] & _ & Hr & _).
    rewrite Hroutes in Hr; discriminate. }
  destruct (Osrm.legs primaryRoute) as [| leg legs] eqn:Hlegs;
    cbn [nth_error].
  { split; [discriminate |].
    intros (? & ? & ? & ? & ? & [= <-] & _ & Hr & Hl & _).
    rewrite Hroutes in Hr; injection Hr as <- <-.
    rewrite Hlegs in Hl; discriminate. }
  split.
  - intros [= <-].
    exists data, primaryRoute, others, leg, legs; repeat split; assumption.
  - intros (? & ? & ? & ? & ? & [= <-] & _ & Hr & Hl & ->).
    rewrite Hroutes in Hr; injection Hr as <- <-.
    rewrite Hlegs in Hl; injection Hl as <- <-.
    reflexivity.
Qed.

Lemma getRoute_inr (w : World) (from to : Location (number w)) (e : Thrown) :
  getRoute w from to = inr e -> e = ErrorInstance "Failed to calculate route".
Proof.
  unfold getRoute; destruct (getRoute_try w from to); [discriminate |].
  now intros [= <-].
Qed.

(** X10: [getRoute] returns exactly on the replies that carry the code [Ok], a
    first route and a first leg of that route; every other reply, and every
    failure of the request, surfaces as the one error
    [Failed to calculate route]: the message written on line 170 never
    leaves the function. *)
Theorem getRoute_outcome (w : World) (from to : Location (number w)) :
  ((exists routeData, getRoute w from to = inl routeData) <->
   (exists data primaryRoute others leg legs,
      osrm w from to = Body data /\
      Osrm.code data = "Ok"%string /\
      Osrm.routes data = primaryRoute :: others /\
      Osrm.legs primaryRoute = leg :: legs)) /\
  ((forall routeData, getRoute w from to <> inl routeData) ->
   getRoute w from to = inr (ErrorInstance "Failed to calculate route")) /\
  getRoute w from to <>
    inr (ErrorInstance "Unable to find route between these locations").
Proof.
  split; [| split].
  - split.
    + intros [routeData H]; apply getRoute_inl in H.
      destruct H as (data & p & o & l & ls & H1 & H2 & H3 & H4 & _).
      now exists data, p, o, l, ls.
    + intros (data & p & o & l & ls & H1 & H2 & H3 & H4).
      eexists; apply getRoute_inl.
      exists data, p, o, l, ls; repeat split; eassumption.
  - intros Hno.
    destruct (getRoute w from to) as [routeData | e] eqn:H.
    + now destruct (Hno routeData).
    + now rewrite (getRoute_inr w from to e H).
  - intros H; apply getRoute_inr in H; discriminate.
Qed.

Lemma getRoute_outcome_witness :
  getRoute Sample.noRouteWorld
    (locationOf Sample.noRouteWorld Sample.bengaluru)
    (locationOf Sample.noRouteWorld Sample.hyderabad) =
  inr (ErrorInstance "Failed to calculate route").
Proof.
  apply (getRoute_outcome Sample.noRouteWorld); intros routeData; discriminate.
Defined.

Section UsableReply.

Variable w : World.
Variables from to : Location (number w).
Variable data : Osrm.Response.
Variable primaryRoute : Osrm.Route.
Variable others : list Osrm.Route.
Variable leg : Osrm.Leg.
Variable legs : list Osrm.Leg.
Hypothesis replied : osrm w from to = Body data.
Hypothesis code_ok : Osrm.code data = "Ok"%string.
Hypothesis routes_eq : Osrm.routes data = primaryRoute :: others.
Hypothesis legs_eq : Osrm.legs primaryRoute = leg :: legs.

Lemma getRoute_usable :
  getRoute w from to =
    inl {| RouteData.coordinates :=
             map swapCoord (Osrm.coordinates (Osrm.geometry primaryRoute));
           RouteData.distance := Osrm.distance primaryRoute / 1000;
           RouteData.duration :=
             duration (calculateTruckDuration
                         (Osrm.distance primaryRoute / 1000)
                         (Osrm.summary leg));
           RouteData.restStops :=
             restStops (calculateTruckDuration
                          (Osrm.distance primaryRoute / 1000)
                          (Osrm.summary leg));
           RouteData.alternatives :=
             map (fun route =>
                    map swapCoord (Osrm.coordinates (Osrm.geometry route)))
                 others |}.
Proof.
  apply getRoute_inl.
  exists data, primaryRoute, others, leg, legs; repeat split; assumption.
Qed.

(** X11: the path handed to the map is the geometry of the first route with
    every (longitude, latitude) pair turned into (latitude, longitude), in the
    same order; swapping back gives the geometry again.  The other routes of
    the reply become the alternatives, one each and in order. *)
Theorem getRoute_coordinates :
  exists routeData,
    getRoute w from to = inl routeData /\
    length (RouteData.coordinates routeData) =
      length (Osrm.coordinates (Osrm.geometry primaryRoute)) /\
    map swapCoord (RouteData.coordinates routeData) =
      Osrm.coordinates (Osrm.geometry primaryRoute) /\
    (forall (i : nat) (longitude latitude : Q),
       nth_error (Osrm.coordinates (Osrm.geometry primaryRoute)) i =
         Some (longitude, latitude) ->
       nth_error (RouteData.coordinates routeData) i =
         Some (latitude, longitude)) /\
    length (RouteData.alternatives routeData) = length others /\
    (forall (i : nat) (other : Osrm.Route),
       nth_error others i = Some other ->
       exists alternative,
         nth_error (RouteData.alternatives routeData) i = Some alternative /\
         map swapCoord alternative =
           Osrm.coordinates (Osrm.geometry other)).
Proof.
  eexists; split; [exact getRoute_usable |].
  cbn [RouteData.coordinates RouteData.alternatives].
  split; [apply length_map |].
  split; [apply map_swapCoord_involutive |].
  split; [| split; [apply length_map |]].
  - intros i longitude latitude H.
    rewrite nth_error_map, H; reflexivity.
  - intros i other H; eexists; split.
    + rewrite nth_error_map, H; reflexivity.
    + apply map_swapCoord_involutive.
Qed.


End UsableReply.

Lemma getRoute_coordinates_witness :
  exists routeData,
    getRoute Sample.world (locationOf Sample.world Sample.bengaluru)
      (locationOf Sample.world Sample.hyderabad) = inl routeData /\
    length (RouteData.coordinates routeData) =
      length (Osrm.coordinates (Osrm.geometry Sample.primaryRoute)) /\
    map swapCoord (RouteData.coordinates routeData) =
      Osrm.coordinates (Osrm.geometry Sample.primaryRoute) /\
    (forall (i : nat) (longitude latitude : Q),
       nth_error (Osrm.coordinates (Osrm.geometry Sample.primaryRoute)) i =
         Some (longitude, latitude) ->
       nth_error (RouteData.coordinates routeData) i =
         Some (latitude, longitude)) /\
    length (RouteData.alternatives routeData) = length [Sample.otherRoute] /\
    (forall (i : nat) (other : Osrm.Route),
       nth_error [Sample.otherRoute] i = Some other ->
       exists alternative,
         nth_error (RouteData.alternatives routeData) i = Some alternative /\
         map swapCoord alternative =
           Osrm.coordinates (Osrm.geometry other)).
Proof.
  apply (getRoute_coordinates Sample.world _ _ Sample.reply
           Sample.primaryRoute [Sample.otherRoute]
           {| Osrm.summary := "NH 44" |} []); reflexivity.
Defined.


(** ** The search handler *)


(** The state in which a search ends, as a function of the answers. *)
Lemma handleSearch_eq (w : World) (s : State) :
  handleSearch w s =
    match searchLocation w (nominatimFrom w) (fromLocation s),
          searchLocation w (nominatimTo w) (toLocation s) with
    | Some fromLoc, Some toLoc =>
        match getRoute w fromLoc toLoc with
        | inl routeData =>
            {| fromLocation := fromLocation s; toLocation := toLocation s;
               route := RouteData.coordinates routeData;
               loading := false; error := None;
               routeInfo :=
                 Some {| RouteInfo.distance := RouteData.distance routeData;
                         RouteInfo.duration := RouteData.duration routeData;
                         RouteInfo.restStops := RouteData.restStops routeData;
                         RouteInfo.alternatives :=
                           Some (RouteData.alternatives routeData);
                         RouteInfo.trafficLevel := None |} |}
        | inr _ =>
            {| fromLocation := fromLocation s; toLocation := toLocation s;
               route := []; loading := false;
               error := Some "Failed to calculate route"%string;
               routeInfo := None |}
        end
    | _, _ =>
        {| fromLocation := fromLocation s; toLocation := toLocation s;
           route := []; loading := false;
           error := Some notFoundMessage; routeInfo := None |}
    end.
Proof.
  unfold handleSearch, handleSearch_try.
  cbn [setLoading setError setRoute setRouteInfo fromLocation toLocation
       route loading error routeInfo].
  destruct (searchLocation w (nominatimFrom w) (fromLocation s)) as [f |];
    destruct (searchLocation w (nominatimTo w) (toLocation s)) as [t |];
    try reflexivity.
  destruct (getRoute w f t) as [routeData | e] eqn:H; [reflexivity |].
  now rewrite (getRoute_inr w f t e H).
Qed.

(** X13: a search always ends with the spinner off and the two text fields
    untouched, and with exactly one of a result and an error: either no error
    and a route summary, or an error, no summary and an empty map. *)
Theorem handleSearch_outcome (w : World) (s : State) :
  loading (handleSearch w s) = false /\
  fromLocation (handleSearch w s) = fromLocation s /\
  toLocation (handleSearch w s) = toLocation s /\
  ((error (handleSearch w s) = None /\ routeInfo (handleSearch w s) <> None) \/
   (error (handleSearch w s) <> None /\
    routeInfo (handleSearch w s) = None /\
    route (handleSearch w s) = [])).
Proof.
  rewrite handleSearch_eq.
  destruct (searchLocation w (nominatimFrom w) (fromLocation s)) as [f |];
    destruct (searchLocation w (nominatimTo w) (toLocation s)) as [t |];
    try destruct (getRoute w f t);
    cbn [loading fromLocation toLocation error routeInfo route];
    repeat split; try (right; repeat split; discriminate); try reflexivity.
  left; split; [reflexivity | discriminate].
Qed.

(** X14: a search shows one of two messages and no other.  The first one
    appears exactly when a place is missing, the second exactly when both
    places were found and the route request did not return; the fallback
    text of line 225 and the text of line 170 are never shown. *)
Theorem handleSearch_messages (w : World) (s : State) :
  (error (handleSearch w s) = Some notFoundMessage <->
   searchLocation w (nominatimFrom w) (fromLocation s) = None \/
   searchLocation w (nominatimTo w) (toLocation s) = None) /\
  (error (handleSearch w s) = Some "Failed to calculate route"%string <->
   exists fromLoc toLoc,
     searchLocation w (nominatimFrom w) (fromLocation s) = Some fromLoc /\
     searchLocation w (nominatimTo w) (toLocation s) = Some toLoc /\
     forall routeData, getRoute w fromLoc toLoc <> inl routeData) /\
  (error (handleSearch w s) = None \/
   error (handleSearch w s) = Some notFoundMessage \/
   error (handleSearch w s) = Some "Failed to calculate route"%string) /\
  errorShown (handleSearch w s) <>
    Some "An unexpected error occurred"%string /\
  errorShown (handleSearch w s) <>
    Some "Unable to find route between these locations"%string.
Proof.
  unfold errorShown; rewrite handleSearch_eq.
  destruct (searchLocation w (nominatimFrom w) (fromLocation s)) as [f |];
    destruct (searchLocation w (nominatimTo w) (toLocation s)) as [t |];
    try destruct (getRoute w f t) as [routeData | e] eqn:Hroute;
    cbn [error].
  - (* both places found, a route returned *)
    split; [split; [discriminate | intros [H | H]; discriminate] |].
    split; [split; [discriminate |] |].
    { intros (f' & t' & [= <-] & [= <-] & Hno); now destruct (Hno routeData). }
    repeat split; try discriminate; now left.
  - (* both places found, the route request failed *)
    split; [split; [discriminate | intros [H | H]; discriminate] |].
    split; [split; [intros _ | reflexivity] |].
    { exists f, t; repeat split; intros r; rewrite Hroute; discriminate. }
    repeat split; try discriminate; now right; right.
  - (* the destination is missing *)
    split; [split; [intros _; now right | reflexivity] |].
    split; [split; [discriminate | intros (? & ? & _ & [=] & _)] |].
    repeat split; try discriminate; now right; left.
  - (* the origin is missing *)
    split; [split; [intros _; now left | reflexivity] |].
    split; [split; [discriminate | intros (? & ? & [=] & _)] |].
    repeat split; try discriminate; now right; left.
  - (* both are missing *)
    split; [split; [intros _; now left | reflexivity] |].
    split; [split; [discriminate | intros (? & ? & [=] & _)] |].
    repeat split; try discriminate; now right; left.
Qed.

(** X15: nothing of an earlier search survives: the state in which a search
    ends depends on the two texts and on the answers only, not on the route,
    the summary, the error or the spinner it started from. *)
Theorem handleSearch_forgets_previous (w : World) (s1 s2 : State) :
  fromLocation s1 = fromLocation s2 ->
  toLocation s1 = toLocation s2 ->
  handleSearch w s1 = handleSearch w s2.
Proof.
  intros Hf Ht; rewrite !handleSearch_eq, Hf, Ht; reflexivity.
Qed.

Lemma handleSearch_forgets_previous_witness :
  handleSearch Sample.world
    (handleSearch Sample.noRouteWorld (Sample.initial "Bengaluru" "Hyderabad"))
  = handleSearch Sample.world (Sample.initial "Bengaluru" "Hyderabad").
Proof.
  apply (handleSearch_forgets_previous Sample.world); reflexivity.
Defined.

(** ** What a successful search displays *)

Section SuccessfulSearch.

Variable w : World.
Variable s : State.
Variables placeFrom placeTo : Nominatim.Place.
Variables restFrom restTo : list Nominatim.Place.
Variable data : Osrm.Response.
Variable primaryRoute : Osrm.Route.
Variable others : list Osrm.Route.
Variable leg : Osrm.Leg.
Variable legs : list Osrm.Leg.
Hypothesis from_found :
  nominatimFrom w (fromLocation s) = Body (placeFrom :: restFrom).
Hypothesis to_found :
  nominatimTo w (toLocation s) = Body (placeTo :: restTo).
Hypothesis replied :
  osrm w (locationOf w placeFrom) (locationOf w placeTo) = Body data.
Hypothesis code_ok : Osrm.code data = "Ok"%string.
Hypothesis routes_eq : Osrm.routes data = primaryRoute :: others.
Hypothesis legs_eq : Osrm.legs primaryRoute = leg :: legs.

Lemma handleSearch_success :
  handleSearch w s =
    {| fromLocation := fromLocation s; toLocation := toLocation s;
       route := map swapCoord (Osrm.coordinates (Osrm.geometry primaryRoute));
       loading := false; error := None;
       routeInfo :=
         Some {| RouteInfo.distance := Osrm.distance primaryRoute / 1000;
                 RouteInfo.duration :=
                   duration (calculateTruckDuration
                               (Osrm.distance primaryRoute / 1000)
                               (Osrm.summary leg));
                 RouteInfo.restStops :=
                   restStops (calculateTruckDuration
                                (Osrm.distance primaryRoute / 1000)
                                (Osrm.summary leg));
                 RouteInfo.alternatives :=
                   Some (map (fun route =>
                                map swapCoord
                                  (Osrm.coordinates (Osrm.geometry route)))
                             others);
                 RouteInfo.trafficLevel := None |} |}.
Proof.
  rewrite handleSearch_eq.
  unfold searchLocation; rewrite from_found, to_found; cbn [nth_error].
  rewrite (getRoute_usable w _ _ data primaryRoute others leg legs
             replied code_ok routes_eq legs_eq).
  reflexivity.
Qed.

(** X16: the two markers stand on the ends of the drawn path, that is on the
    first and on the last point of the geometry of the first route with
    latitude and longitude exchanged, not on the geocoded places; a reply
    with an empty geometry shows the summary and no marker. *)
Theorem markers_at_route_ends :
  (forall (first last : Q * Q) (middle : list (Q * Q)),
     Osrm.coordinates (Osrm.geometry primaryRoute) =
       first :: middle ++ [last] ->
     startMarker (handleSearch w s) = Some (snd first, fst first) /\
     endMarker (handleSearch w s) = Some (snd last, fst last)) /\
  (forall only : Q * Q,
     Osrm.coordinates (Osrm.geometry primaryRoute) = [only] ->
     startMarker (handleSearch w s) = Some (snd only, fst only) /\
     endMarker (handleSearch w s) = Some (snd only, fst only)) /\
  (Osrm.coordinates (Osrm.geometry primaryRoute) = [] ->
   startMarker (handleSearch w s) = None /\
   endMarker (handleSearch w s) = None /\
   routeInfo (handleSearch w s) <> None).
Proof.
  rewrite handleSearch_success; unfold startMarker, endMarker; cbn [route routeInfo].
  split; [| split].
  - intros first last middle ->; split; [reflexivity |].
    cbn [map length Nat.ltb Nat.leb Nat.sub].
    rewrite Nat.sub_0_r, map_app, length_app, length_map; cbn [map length].
    replace (length middle + 1)%nat with (S (length middle)) by lia.
    cbn [nth_error].
    rewrite nth_error_app2 by (rewrite length_map; lia).
    rewrite length_map, Nat.sub_diag; reflexivity.
  - intros only ->; split; reflexivity.
  - intros ->; repeat split; discriminate.
Qed.

(** X17: the rest-stop note is shown exactly when the first route is at
    least 360 000 metres long, and then with the number of completed
    stretches of 360 km; the line about alternatives is shown exactly when
    the reply holds a second route, with the number of further routes. *)
Theorem notes_of_a_successful_search :
  (restStopsShown (handleSearch w s) <> None <->
   360000 <= Osrm.distance primaryRoute) /\
  (forall k : Z,
     restStopsShown (handleSearch w s) = Some k ->
     inject_Z (360000 * k) <= Osrm.distance primaryRoute /\
     Osrm.distance primaryRoute < inject_Z (360000 * (k + 1))) /\
  alternativesShown (handleSearch w s) =
    match others with
    | [] => None
    | _ :: _ => Some (length others)
    end.
Proof.
  rewrite handleSearch_success.
  unfold restStopsShown, alternativesShown.
  cbn [routeInfo RouteInfo.restStops RouteInfo.alternatives].
  set (km := Osrm.distance primaryRoute / 1000).
  assert (km * 1000 == Osrm.distance primaryRoute) as Hkm
    by (unfold km; field).
  set (stops := restStops (calculateTruckDuration km (Osrm.summary leg))).
  assert ((0 < stops)%Z <-> 360 <= km) as Hstops.
  { unfold stops; destruct (Qlt_le_dec 15 km) as [Hl | Hs].
    - rewrite long_haul by assumption; cbn [restStops]; split.
      + intros Hpos.
        destruct (Qlt_le_dec km 360) as [Hlt | Hge]; [| lra].
        pose proof (longRestStops_below_360 km Hlt); lia.
      + intros Hge; pose proof (longRestStops_from_360 km Hge); lia.
    - rewrite short_haul by assumption; cbn [restStops].
      split; [lia | lra]. }
  split; [| split].
  - destruct (Z.ltb_spec 0 stops) as [Hpos | Hnot].
    + split; [intros _ | discriminate].
      apply Hstops in Hpos; lra.
    + split; [intros H; now destruct H |].
      intros Hm; assert (360 <= km) as Hge by lra.
      apply Hstops in Hge; lia.
  - intros k; destruct (Z.ltb_spec 0 stops) as [Hpos | Hnot];
      [| discriminate].
    intros [= <-].
    assert (360 <= km) as Hge by now apply Hstops.
    assert (100 < km) as Hm by lra.
    assert (stops = Qfloor (km / 360)) as Hfloor.
    { unfold stops; rewrite long_haul by lra; cbn [restStops].
      now apply longRestStops_motorway. }
    destruct (Qfloor_bounds (km / 360)) as [Hlo Hhi].
    rewrite <- Hfloor in Hlo, Hhi.
    rewrite !inject_Z_mult, inject_Z_plus.
    change (inject_Z 360000) with 360000; change (inject_Z 1) with 1.
    split; qlra.
  - rewrite length_map; now destruct others.
Qed.

End SuccessfulSearch.

Lemma markers_at_route_ends_witness :
  startMarker
    (handleSearch Sample.world (Sample.initial "Bengaluru" "Hyderabad")) =
    Some (12.9716, 77.5946) /\
  endMarker
    (handleSearch Sample.world (Sample.initial "Bengaluru" "Hyderabad")) =
    Some (17.3850, 78.4867).
Proof.
  destruct (markers_at_route_ends Sample.world
              (Sample.initial "Bengaluru" "Hyderabad")
              Sample.bengaluru Sample.hyderabad [] [Sample.bengaluru]
              Sample.reply Sample.primaryRoute [Sample.otherRoute]
              {| Osrm.summary := "NH 44" |} []
              eq_refl eq_refl eq_refl eq_refl eq_refl eq_refl) as [H _].
  apply (H (77.5946, 12.9716) (78.4867, 17.3850) [(78.0, 15.0)]).
  reflexivity.
Defined.

Lemma notes_of_a_successful_search_witness :
  restStopsShown
    (handleSearch Sample.world (Sample.initial "Bengaluru" "Hyderabad")) <>
    None <->
  360000 <= Osrm.distance Sample.primaryRoute.
Proof.
  apply (notes_of_a_successful_search Sample.world
           (Sample.initial "Bengaluru" "Hyderabad")
           Sample.bengaluru Sample.hyderabad [] [Sample.bengaluru]
           Sample.reply Sample.primaryRoute [Sample.otherRoute]
           {| Osrm.summary := "NH 44" |} []); reflexivity.
Defined.
